(** * SonarQube deployment topology (src/main.py)

    A shallow embedding of the CDK stack declared in [src/main.py]:
    the constructs the stack registers, the handles by which they refer
    to one another, the deferred values (tokens) they exchange, the
    in-place changes made after construction ([add_ingress_rule],
    [add_container], [configure_health_check], [grant_read]), and the
    exceptions raised on the way.

    Constructs live in the scope of the stack, keyed by construct id; a
    Python variable holding a construct is modelled as that id, so two
    uses of the same variable are two uses of the same entry.  A raised
    exception ends the run and leaves the scope as it was at that
    point. *)

From stdpp Require Import gmap strings list fin_maps.
From Stdlib Require Import Ascii ZArith Lia.

Local Open Scope string_scope.

(** ** Deferred values *)

Module Token.

(** String-valued attributes known only once the resource exists. *)
Inductive t :=
| DbInstanceEndpointAddress (db : string)
| DbInstanceEndpointPort (db : string)
| SecretValueUnsafeUnwrap (secret : string).

(** A Python string with deferred values spliced in (an f-string). *)
Inductive frag :=
| Lit (s : string)
| Tok (tk : t).

Definition tstring := list frag.

(** What the provisioning engine substitutes at apply time. *)
Record resolver := {
  endpoint_address : string → string;
  endpoint_port : string → string;
  secret_value : string → string
}.

Definition resolve_token (r : resolver) (tk : t) : string :=
  match tk with
  | DbInstanceEndpointAddress db => endpoint_address r db
  | DbInstanceEndpointPort db => endpoint_port r db
  | SecretValueUnsafeUnwrap s => secret_value r s
  end.

Definition resolve_frag (r : resolver) (f : frag) : string :=
  match f with
  | Lit s => s
  | Tok tk => resolve_token r tk
  end.

Fixpoint resolve (r : resolver) (ts : tstring) : string :=
  match ts with
  | [] => EmptyString
  | f :: rest => resolve_frag r f ++ resolve r rest
  end.

Fixpoint tokens (ts : tstring) : list t :=
  match ts with
  | [] => []
  | Lit _ :: rest => tokens rest
  | Tok tk :: rest => tk :: tokens rest
  end.

Fixpoint literals (ts : tstring) : list string :=
  match ts with
  | [] => []
  | Lit s :: rest => s :: literals rest
  | Tok _ :: rest => literals rest
  end.

End Token.

(** ** Networking *)

Inductive SubnetType := PUBLIC | PRIVATE_WITH_EGRESS | PRIVATE_ISOLATED.

Definition SubnetType_eqb (a b : SubnetType) : bool :=
  match a, b with
  | PUBLIC, PUBLIC
  | PRIVATE_WITH_EGRESS, PRIVATE_WITH_EGRESS
  | PRIVATE_ISOLATED, PRIVATE_ISOLATED => true
  | _, _ => false
  end.

Record SubnetConfiguration := {
  sc_name : string;
  sc_subnet_type : SubnetType
}.

Record Vpc := {
  max_azs : nat;
  subnet_configuration : list SubnetConfiguration
}.

(** An IPv4 block: a 32-bit base address and a prefix length. *)
Record Cidr := {
  cidr_base : Z;
  cidr_prefix : Z
}.

(** [a] lies in [c] when the two agree on the leading [cidr_prefix] bits. *)
Definition in_cidr (c : Cidr) (a : Z) : bool :=
  (Z.shiftr a (32 - cidr_prefix c) =? Z.shiftr (cidr_base c) (32 - cidr_prefix c))%Z.

Inductive CidrExpr :=
| CidrLiteral (c : Cidr)
| VpcCidrBlock (vpc : string).

Inductive Peer :=
| Ipv4 (cidr : CidrExpr).

(** 0.0.0.0/0 *)
Definition Peer_any_ipv4 : Peer :=
  Ipv4 (CidrLiteral {| cidr_base := 0; cidr_prefix := 0 |}).

Inductive Protocol := TCP | UDP | ICMP | ALL.

(** For TCP and UDP a range of ports; for ICMP, [from_port] is the
    message type and [to_port] the code. *)
Record Port := {
  port_protocol : Protocol;
  from_port : Z;
  to_port : Z
}.

Definition Port_tcp (p : Z) : Port :=
  {| port_protocol := TCP; from_port := p; to_port := p |}.

Definition Port_icmp_type_and_code (ty code : Z) : Port :=
  {| port_protocol := ICMP; from_port := ty; to_port := code |}.

Definition Port_all_traffic : Port :=
  {| port_protocol := ALL; from_port := 0; to_port := 65535 |}.

Record Rule := {
  rule_peer : Peer;
  rule_connection : Port;
  rule_description : string
}.

(** The egress rule a group gets when it is to let nothing out: ICMP
    type 252, code 86, to 255.255.255.255/32. *)
Definition MATCH_NO_TRAFFIC : Rule :=
  {| rule_peer := Ipv4 (CidrLiteral {| cidr_base := 4294967295; cidr_prefix := 32 |});
     rule_connection := Port_icmp_type_and_code 252 86;
     rule_description := "Disallow all traffic" |}.

(** The egress rule a group gets when it is to let everything out. *)
Definition ALLOW_ALL_RULE : Rule :=
  {| rule_peer := Peer_any_ipv4;
     rule_connection := Port_all_traffic;
     rule_description := "Allow all outbound traffic by default" |}.

Record SecurityGroup := {
  sg_vpc : string;
  sg_description : option string;
  allow_all_outbound : bool;
  ingress_rules : list Rule;
  egress_rules : list Rule
}.

(** ** Secrets and the database *)

Record SecretStringGenerator := {
  secret_string_template : string;
  generate_string_key : string
}.

Record Secret := {
  generate_secret_string : option SecretStringGenerator
}.

(** [ec2.SubnetSelection], what [vpc_subnets] takes. *)
Record SubnetSelection := {
  sel_subnet_type : option SubnetType;
  sel_subnet_group_name : option string
}.

(** A subnet group covers the subnets of one tier of its network. *)
Record SubnetGroup := {
  subnet_group_vpc : string;
  subnet_group_name : string;
  subnet_group_description : string;
  subnet_group_subnet_type : SubnetType
}.

Inductive Credentials :=
| from_secret (secret : string)
| from_generated_secret (username : string).

Inductive PostgresEngineVersion := VER_13 | VER_14 | VER_15.
Inductive DatabaseInstanceEngine := postgres (version : PostgresEngineVersion).
Inductive InstanceClass := BURSTABLE2 | BURSTABLE3.
Inductive InstanceSize := SMALL | MEDIUM | LARGE.
Inductive StorageType := GP2 | GP3 | IO1.
Inductive RemovalPolicy := DESTROY | RETAIN | SNAPSHOT.

Record DatabaseInstance := {
  engine : DatabaseInstanceEngine;
  instance_type : InstanceClass * InstanceSize;
  db_vpc : string;
  credentials : Credentials;
  vpc_subnets : SubnetSelection;
  db_security_groups : list string;
  database_name : string;
  allocated_storage : Z;
  storage_type : StorageType;
  multi_az : bool;
  db_removal_policy : RemovalPolicy;
  deletion_protection : bool
}.

(** ** Containers and the service *)

Record Cluster := {
  cluster_vpc : string
}.

Record LogGroup := {
  log_group_name : string;
  log_removal_policy : RemovalPolicy
}.

Inductive ContainerImage :=
| from_registry (name : string).

Inductive LogDriver :=
| aws_logs (stream_prefix : string) (log_group : string).

Record PortMapping := {
  container_port : Z
}.

Record ContainerDefinition := {
  container_id : string;
  image : ContainerImage;
  container_memory_limit_mib : Z;
  container_cpu : Z;
  logging : LogDriver;
  environment : gmap string Token.tstring;
  port_mappings : list PortMapping
}.

Record PolicyStatement := {
  actions : list string;
  resources : list string
}.

Record Role := {
  policy : list PolicyStatement
}.

(** A task definition has a task role from the start; its execution
    role is made when a container first needs one. *)
Record FargateTaskDefinition := {
  cpu : Z;
  memory_limit_mib : Z;
  containers : list ContainerDefinition;
  task_role : Role;
  execution_role : option Role
}.

Record HealthCheck := {
  hc_path : option string
}.

Record TargetGroup := {
  health_check : HealthCheck
}.

Record ApplicationLoadBalancedFargateService := {
  svc_cluster : string;
  svc_task_definition : string;
  public_load_balancer : bool;
  desired_count : nat;
  svc_security_groups : list string;
  target_group : TargetGroup
}.

(** ** The construct scope *)

Inductive Resource :=
| RVpc (v : Vpc)
| RSecret (s : Secret)
| RSubnetGroup (g : SubnetGroup)
| RSecurityGroup (g : SecurityGroup)
| RDatabaseInstance (d : DatabaseInstance)
| RCluster (c : Cluster)
| RTaskDefinition (t : FargateTaskDefinition)
| RLogGroup (l : LogGroup)
| RService (s : ApplicationLoadBalancedFargateService)
| RBootstrapVersion
| RCheckBootstrapVersion.

Inductive Error :=
| DuplicateConstructId (id : string)
| NotAConstruct (id : string)
| AttributeError (obj name : string)
| NoSubnetsOfType (vpc : string) (t : SubnetType)
| InvalidDesiredCount (n : nat)
| UnparsableEnvironment (account region : string).

(** How a run ends: with a value, or with an exception; either way
    with the scope as it then is. *)
Inductive outcome (A : Type) :=
| Ok (a : A) (st : gmap string Resource)
| Raised (e : Error) (st : gmap string Resource).
Arguments Ok {A} a st.
Arguments Raised {A} e st.

(** Construction runs in the scope of the stack ([self]): every
    constructor adds a child, every later method call updates one. *)
Definition M (A : Type) : Type := gmap string Resource → outcome A.

#[global] Instance M_ret : MRet M := fun A a st => Ok a st.

#[global] Instance M_bind : MBind M := fun A B k m st =>
  match m st with
  | Ok a st' => k a st'
  | Raised e st' => Raised e st'
  end.

Definition raise {A} (e : Error) : M A := fun st => Raised e st.

(** A construct id may be used once per scope; the handle returned is
    the id. *)
Definition add_child (id : string) (r : Resource) : M string :=
  fun st =>
    match st !! id with
    | Some _ => Raised (DuplicateConstructId id) st
    | None => Ok id (<[id := r]> st)
    end.

(** A method call on a held construct: the entry is changed in place. *)
Definition update (id : string) (f : Resource → option Resource) : M unit :=
  fun st =>
    match st !! id with
    | Some r =>
        match f r with
        | Some r' => Ok tt (<[id := r']> st)
        | None => Raised (NotAConstruct id) st
        end
    | None => Raised (NotAConstruct id) st
    end.

(** Reading an attribute of a held construct. *)
Definition get (id : string) : M Resource :=
  fun st =>
    match st !! id with
    | Some r => Ok r st
    | None => Raised (NotAConstruct id) st
    end.

(** A Python dict literal: entries are stored in order, a repeated key
    keeps the last value. *)
Definition dict_literal {V} (kvs : list (string * V)) : gmap string V :=
  foldl (fun m kv => <[kv.1 := kv.2]> m) ∅ kvs.

(** ** Constructors and methods used by the stack *)

Definition new_Vpc (id : string) (max_azs : nat)
    (subnet_configuration : list SubnetConfiguration) : M string :=
  add_child id (RVpc {| max_azs := max_azs;
                        subnet_configuration := subnet_configuration |}).

Definition new_Secret (id : string) (generate_secret_string : option SecretStringGenerator)
    : M string :=
  add_child id (RSecret {| generate_secret_string := generate_secret_string |}).

Definition has_tier (v : Vpc) (t : SubnetType) : bool :=
  existsb (λ c, SubnetType_eqb t (sc_subnet_type c)) (subnet_configuration v).

(** Given no [vpc_subnets], a subnet group takes the private subnets
    with egress of its network, and cannot be made if there are none. *)
Definition new_SubnetGroup (id vpc subnet_group_name description : string) : M string :=
  r ← get vpc;
  match r with
  | RVpc v =>
      if has_tier v PRIVATE_WITH_EGRESS
      then add_child id (RSubnetGroup {| subnet_group_vpc := vpc;
                                         subnet_group_name := subnet_group_name;
                                         subnet_group_description := description;
                                         subnet_group_subnet_type := PRIVATE_WITH_EGRESS |})
      else raise (NoSubnetsOfType vpc PRIVATE_WITH_EGRESS)
  | _ => raise (NotAConstruct vpc)
  end.

(** A new group has no ingress rule and one egress rule, which depends
    on [allow_all_outbound]. *)
Definition new_SecurityGroup (id vpc : string) (description : option string)
    (allow_all_outbound : bool) : M string :=
  add_child id (RSecurityGroup {| sg_vpc := vpc;
                                  sg_description := description;
                                  allow_all_outbound := allow_all_outbound;
                                  ingress_rules := [];
                                  egress_rules :=
                                    if allow_all_outbound then [ALLOW_ALL_RULE]
                                    else [MATCH_NO_TRAFFIC] |}).

Definition add_ingress_rule (sg : string) (peer : Peer) (connection : Port)
    (description : string) : M unit :=
  update sg (fun r =>
    match r with
    | RSecurityGroup g =>
        Some (RSecurityGroup
                {| sg_vpc := sg_vpc g;
                   sg_description := sg_description g;
                   allow_all_outbound := allow_all_outbound g;
                   ingress_rules :=
                     ingress_rules g ++
                       [{| rule_peer := peer; rule_connection := connection;
                           rule_description := description |}];
                   egress_rules := egress_rules g |})
    | _ => None
    end).

(** [rds.SubnetSelection(subnet_group=...)]: the module [aws_rds] has
    no attribute [SubnetSelection] (the class is [aws_ec2]'s, and takes
    no [subnet_group]), so evaluating the expression raises. *)
Definition rds_SubnetSelection (subnet_group : string) : M SubnetSelection :=
  raise (AttributeError "aws_cdk.aws_rds" "SubnetSelection").

Definition new_DatabaseInstance (id : string) (d : DatabaseInstance) : M string :=
  add_child id (RDatabaseInstance d).

Definition new_Cluster (id vpc : string) : M string :=
  add_child id (RCluster {| cluster_vpc := vpc |}).

Definition new_FargateTaskDefinition (id : string) (cpu memory_limit_mib : Z) : M string :=
  add_child id (RTaskDefinition {| cpu := cpu;
                                   memory_limit_mib := memory_limit_mib;
                                   containers := [];
                                   task_role := {| policy := [] |};
                                   execution_role := None |}).

Definition new_LogGroup (id log_group_name : string) (removal_policy : RemovalPolicy)
    : M string :=
  add_child id (RLogGroup {| log_group_name := log_group_name;
                             log_removal_policy := removal_policy |}).

(** [ecs.ContainerImage.from_docker_hub(...)]: the class has no such
    method (images come [from_registry]), so evaluating the expression
    raises. *)
Definition ContainerImage_from_docker_hub (name : string) : M ContainerImage :=
  raise (AttributeError "ContainerImage" "from_docker_hub").

(** What the log driver lets the execution role do on its log group. *)
Definition log_write_actions : list string :=
  ["logs:CreateLogStream"; "logs:PutLogEvents"].

(** Containers are children of their task definition: an id may be
    used once there.  Logging to a log group makes the execution role,
    if need be, and lets it write to that group. *)
Definition add_container (task_definition : string) (c : ContainerDefinition) : M string :=
  update task_definition (fun r =>
    match r with
    | RTaskDefinition t =>
        if existsb (String.eqb (container_id c)) (map container_id (containers t))
        then None
        else Some (RTaskDefinition
                     {| cpu := cpu t;
                        memory_limit_mib := memory_limit_mib t;
                        containers := containers t ++ [c];
                        task_role := task_role t;
                        execution_role :=
                          match logging c with
                          | aws_logs _ lg =>
                              Some {| policy :=
                                        match execution_role t with
                                        | Some role => policy role
                                        | None => []
                                        end ++
                                        [{| actions := log_write_actions;
                                            resources := [lg] |}] |}
                          end |})
    | _ => None
    end);;
  mret (container_id c).

(** A service cannot be declared with no task to run. *)
Definition new_ApplicationLoadBalancedFargateService (id cluster task_definition : string)
    (public_load_balancer : bool) (desired_count : nat)
    (security_groups : list string) : M string :=
  match desired_count with
  | O => raise (InvalidDesiredCount desired_count)
  | S _ =>
      add_child id (RService {| svc_cluster := cluster;
                                svc_task_definition := task_definition;
                                public_load_balancer := public_load_balancer;
                                desired_count := desired_count;
                                svc_security_groups := security_groups;
                                target_group :=
                                  {| health_check := {| hc_path := None |} |} |})
  end.

(** [service.target_group.configure_health_check(path=...)] *)
Definition configure_health_check (service : string) (path : string) : M unit :=
  update service (fun r =>
    match r with
    | RService s =>
        Some (RService
                {| svc_cluster := svc_cluster s;
                   svc_task_definition := svc_task_definition s;
                   public_load_balancer := public_load_balancer s;
                   desired_count := desired_count s;
                   svc_security_groups := svc_security_groups s;
                   target_group :=
                     {| health_check := {| hc_path := Some path |} |} |})
    | _ => None
    end).

(** [service.task_definition] *)
Definition service_task_definition (service : string) : M string :=
  r ← get service;
  match r with
  | RService s => mret (svc_task_definition s)
  | _ => raise (NotAConstruct service)
  end.

(** The statement [Secret.grant_read] attaches to the grantee. *)
Definition grant_read_actions : list string :=
  ["secretsmanager:GetSecretValue"; "secretsmanager:DescribeSecret"].

(** [secret.grant_read(task_definition.task_role)] *)
Definition grant_read (secret : string) (task_definition : string) : M unit :=
  update task_definition (fun r =>
    match r with
    | RTaskDefinition t =>
        Some (RTaskDefinition
                {| cpu := cpu t;
                   memory_limit_mib := memory_limit_mib t;
                   containers := containers t;
                   task_role :=
                     {| policy :=
                          policy (task_role t) ++
                            [{| actions := grant_read_actions;
                                resources := [secret] |}] |};
                   execution_role := execution_role t |})
    | _ => None
    end).

(** ** The stack *)

(** The double-quote character of the JSON template on line 39. *)
Definition dq : string := String "034"%char EmptyString.

(** ['{"username": "sonar"}'] *)
Definition db_secret_template : string :=
  "{" ++ dq ++ "username" ++ dq ++ ": " ++ dq ++ "sonar" ++ dq ++ "}".

(** The f-string of line 112. *)
Definition jdbc_url (database : string) : Token.tstring :=
  [ Token.Lit "jdbc:postgresql://";
    Token.Tok (Token.DbInstanceEndpointAddress database);
    Token.Lit ":";
    Token.Tok (Token.DbInstanceEndpointPort database);
    Token.Lit "/sonarqube" ].

(** The dict of lines 111 to 118. *)
Definition container_environment_literal (database db_secret : string)
    : gmap string Token.tstring :=
  dict_literal
    [ ("SONAR_JDBC_URL", jdbc_url database);
      ("SONAR_JDBC_USERNAME", [Token.Lit "sonar"]);
      ("SONAR_JDBC_PASSWORD", [Token.Tok (Token.SecretValueUnsafeUnwrap db_secret)]);
      ("SONAR_WEB_JAVAOPTS",
       [Token.Lit "-Xmx2048m -Xms256m -XX:+HeapDumpOnOutOfMemoryError"]);
      ("SONAR_SEARCH_JAVAOPTS",
       [Token.Lit "-Xmx2048m -Xms256m -XX:+HeapDumpOnOutOfMemoryError"]) ].

(** [SonarQubeStack.__init__], statement by statement; the arguments
    of a call are evaluated, in the order written, before the call is
    made.  The argument stands for the literal given to
    [deletion_protection] on line 81, which the source sets to [False]. *)
Definition SonarQubeStack_init (deletion_protection : bool) : M unit :=
  vpc ← new_Vpc "SonarQubeVPC" 2
          [ {| sc_name := "public"; sc_subnet_type := PUBLIC |};
            {| sc_name := "private"; sc_subnet_type := PRIVATE_WITH_EGRESS |} ];
  db_secret ← new_Secret "SonarQubeDBSecret"
          (Some {| secret_string_template := db_secret_template;
                   generate_string_key := "password" |});
  db_subnet_group ← new_SubnetGroup "SonarQubeDBSubnetGroup" vpc
          "sonarqube-db-subnet-group" "Subnet group for SonarQube database";
  db_security_group ← new_SecurityGroup "SonarQubeDBSecurityGroup" vpc
          (Some "Allow SonarQube ECS to access RDS") false;
  add_ingress_rule db_security_group (Ipv4 (VpcCidrBlock vpc)) (Port_tcp 5432)
          "Allow SonarQube ECS to access RDS";;
  db_vpc_subnets ← rds_SubnetSelection db_subnet_group;
  database ← new_DatabaseInstance "SonarQubeDatabase"
          {| engine := postgres VER_14;
             instance_type := (BURSTABLE3, MEDIUM);
             db_vpc := vpc;
             credentials := from_secret db_secret;
             vpc_subnets := db_vpc_subnets;
             db_security_groups := [db_security_group];
             database_name := "sonarqube";
             allocated_storage := 20;
             storage_type := GP2;
             multi_az := true;
             db_removal_policy := DESTROY;
             deletion_protection := deletion_protection |};
  cluster ← new_Cluster "SonarQubeCluster" vpc;
  task_definition ← new_FargateTaskDefinition "SonarQubeTaskDefinition" 2048 4096;
  log_group ← new_LogGroup "SonarQubeLogGroup" "/ecs/sonarqube" DESTROY;
  container_image ← ContainerImage_from_docker_hub "sonarqube:enterprise";
  container ← add_container task_definition
          {| container_id := "SonarQubeContainer";
             image := container_image;
             container_memory_limit_mib := 4096;
             container_cpu := 2048;
             logging := aws_logs "sonarqube" log_group;
             environment := container_environment_literal database db_secret;
             port_mappings := [ {| container_port := 9000 |} ] |};
  service_sg ← new_SecurityGroup "SonarQubeServiceSG" vpc None true;
  service ← new_ApplicationLoadBalancedFargateService "SonarQubeService"
          cluster task_definition true 1 [service_sg];
  configure_health_check service "/sessions/new";;
  service_td ← service_task_definition service;
  grant_read db_secret service_td.

Definition SonarQubeStack : M unit := SonarQubeStack_init false.

Record Environment := {
  account : string;
  region : string
}.

Record Stack := {
  construct_id : string;
  env : option Environment;
  children : gmap string Resource
}.

(** The characters an environment may be written with: letters,
    digits and [-@._] for the account; lower-case letters, digits and
    [-] for the region. *)
Definition is_digit (c : ascii) : bool :=
  (48 <=? nat_of_ascii c)%nat && (nat_of_ascii c <=? 57)%nat.

Definition is_lower (c : ascii) : bool :=
  (97 <=? nat_of_ascii c)%nat && (nat_of_ascii c <=? 122)%nat.

Definition is_upper (c : ascii) : bool :=
  (65 <=? nat_of_ascii c)%nat && (nat_of_ascii c <=? 90)%nat.

Definition account_char (c : ascii) : bool :=
  is_lower c || is_upper c || is_digit c
  || Ascii.eqb c "-" || Ascii.eqb c "@" || Ascii.eqb c "." || Ascii.eqb c "_".

Definition region_char (c : ascii) : bool :=
  is_lower c || is_digit c || Ascii.eqb c "-".

Fixpoint all_chars (p : ascii → bool) (s : string) : bool :=
  match s with
  | EmptyString => true
  | String c rest => p c && all_chars p rest
  end.

Definition nonempty_of (p : ascii → bool) (s : string) : bool :=
  match s with
  | EmptyString => false
  | _ => all_chars p s
  end.

Definition environment_parses (e : Environment) : bool :=
  nonempty_of account_char (account e) && nonempty_of region_char (region e).

(** [app.synth()] on a finished stack: the stack gets its two bootstrap
    children, and its environment must then be readable back. *)
Definition synth (e : option Environment) : M unit :=
  add_child "BootstrapVersion" RBootstrapVersion;;
  add_child "CheckBootstrapVersion" RCheckBootstrapVersion;;
  match e with
  | Some e' =>
      if environment_parses e' then mret tt
      else raise (UnparsableEnvironment (account e') (region e'))
  | None => mret tt
  end.

(** How the module body ends: with the stack synthesized, or with an
    exception and the stack as far as it got. *)
Inductive run :=
| Synthesized (s : Stack)
| Crashed (e : Error) (s : Stack).

(** The module body: one app, one stack in it, then [app.synth()],
    which is not reached if the stack's constructor raises. *)
Definition new_stack (id : string) (e : option Environment) (body : M unit) : run :=
  match (body;; synth e) ∅ with
  | Ok _ st => Synthesized {| construct_id := id; env := e; children := st |}
  | Raised err st => Crashed err {| construct_id := id; env := e; children := st |}
  end.

Definition stack_synth (deletion_protection : bool) : run :=
  new_stack "SonarQubeStack"
    (Some {| account := "YOUR_ACCOUNT_ID"; region := "YOUR_REGION" |})
    (SonarQubeStack_init deletion_protection).

Definition app_synth : run := stack_synth false.

(** How a run ended. *)
Definition stack_of (r : run) : Stack :=
  match r with
  | Synthesized s => s
  | Crashed _ s => s
  end.

Definition error_of (r : run) : option Error :=
  match r with
  | Synthesized _ => None
  | Crashed e _ => Some e
  end.

(** The stack each run leaves behind. *)
Definition declared_with (deletion_protection : bool) : Stack :=
  stack_of (stack_synth deletion_protection).

Definition declared : Stack := stack_of app_synth.

(** The ids of the constructs declared before line 74. *)
Definition declared_ids : list string :=
  [ "SonarQubeVPC"; "SonarQubeDBSecret"; "SonarQubeDBSubnetGroup";
    "SonarQubeDBSecurityGroup" ].

(** ** What the declarations mean to the provisioning engine *)

(** *** Zones and subnet tiers *)

(** [max_azs] caps the zones of the region the network uses: the first
    [max_azs] of those on offer, all of them when fewer are on offer. *)
Definition availability_zones (v : Vpc) (available : list string) : list string :=
  take (max_azs v) available.

Definition subnet_tiers (v : Vpc) : list SubnetType :=
  map sc_subnet_type (subnet_configuration v).

(** One subnet per selected zone and configured tier. *)
Definition subnets (v : Vpc) (available : list string) : list (string * SubnetConfiguration) :=
  z ← availability_zones v available;
  c ← subnet_configuration v;
  [(z, c)].

(** *** Access-control groups *)

Inductive Traffic :=
| tcp (port : Z)
| udp (port : Z)
| icmp (ty code : Z)
| other_protocol (number : Z).

Record Packet := {
  pkt_addr : Z;
  pkt_traffic : Traffic
}.

(** [net] gives each declared network the block it was allotted. *)
Definition eval_cidr (net : string → Cidr) (e : CidrExpr) : Cidr :=
  match e with
  | CidrLiteral c => c
  | VpcCidrBlock vpc => net vpc
  end.

Definition peer_matches (net : string → Cidr) (p : Peer) (a : Z) : bool :=
  match p with
  | Ipv4 e => in_cidr (eval_cidr net e) a
  end.

(** For ICMP, -1 stands for every type, or every code. *)
Definition port_matches (p : Port) (t : Traffic) : bool :=
  match port_protocol p, t with
  | ALL, _ => true
  | TCP, tcp q => (from_port p <=? q)%Z && (q <=? to_port p)%Z
  | UDP, udp q => (from_port p <=? q)%Z && (q <=? to_port p)%Z
  | ICMP, icmp ty code =>
      (from_port p =? -1)%Z
      || ((from_port p =? ty)%Z && ((to_port p =? -1)%Z || (to_port p =? code)%Z))
  | _, _ => false
  end.

Definition rule_matches (net : string → Cidr) (pkt : Packet) (r : Rule) : bool :=
  peer_matches net (rule_peer r) (pkt_addr pkt)
  && port_matches (rule_connection r) (pkt_traffic pkt).

(** Inbound: [pkt_addr] is the sender.  Nothing is admitted without a rule. *)
Definition admits_inbound (net : string → Cidr) (g : SecurityGroup) (pkt : Packet) : bool :=
  existsb (rule_matches net pkt) (ingress_rules g).

(** Outbound: [pkt_addr] is the destination. *)
Definition admits_outbound (net : string → Cidr) (g : SecurityGroup) (pkt : Packet) : bool :=
  existsb (rule_matches net pkt) (egress_rules g).

(** *** Secrets *)

(** Every [Secret] construct is a generated secret, and so is the one a
    database makes for itself under [from_generated_secret]. *)
Definition generates_secret (r : Resource) : bool :=
  match r with
  | RSecret _ => true
  | RDatabaseInstance d =>
      match credentials d with
      | from_generated_secret _ => true
      | from_secret _ => false
      end
  | _ => false
  end.

Definition generated_secrets (st : gmap string Resource) : list string :=
  (map_to_list (filter (λ kv, generates_secret kv.2 = true) st)).*1.

(** The places of a stack where a secret is put to use. *)
Inductive RefSite :=
| DatabaseCredentials (db : string)
| ContainerEnvironment (task_definition container var : string).

Definition token_names_secret (secret : string) (tk : Token.t) : bool :=
  match tk with
  | Token.SecretValueUnsafeUnwrap s => String.eqb s secret
  | _ => false
  end.

Definition container_secret_refs (secret td : string) (c : ContainerDefinition)
    : list RefSite :=
  '(var, ts) ← map_to_list (environment c);
  if existsb (token_names_secret secret) (Token.tokens ts)
  then [ContainerEnvironment td (container_id c) var]
  else [].

Definition resource_secret_refs (secret id : string) (r : Resource) : list RefSite :=
  match r with
  | RDatabaseInstance d =>
      match credentials d with
      | from_secret s => if String.eqb s secret then [DatabaseCredentials id] else []
      | from_generated_secret _ => []
      end
  | RTaskDefinition t => c ← containers t; container_secret_refs secret id c
  | _ => []
  end.

Definition secret_refs (secret : string) (st : gmap string Resource) : list RefSite :=
  '(id, r) ← map_to_list st;
  resource_secret_refs secret id r.

(** The template of a generated secret is a JSON object of string
    fields; the secret is that object with the generated string added
    under [generate_string_key]. *)
Module Json.

Definition is_ws (c : ascii) : bool :=
  Ascii.eqb c " " || Ascii.eqb c "009" || Ascii.eqb c "010" || Ascii.eqb c "013".

Fixpoint skip_ws (s : string) : string :=
  match s with
  | String c r => if is_ws c then skip_ws r else s
  | EmptyString => s
  end.

(** The characters up to the closing quote, and what follows it. *)
Fixpoint read_chars (s : string) : option (string * string) :=
  match s with
  | EmptyString => None
  | String c r =>
      if Ascii.eqb c "034" then Some (EmptyString, r)
      else '(v, rest) ← read_chars r; Some (String c v, rest)
  end.

Definition expect (c : ascii) (s : string) : option string :=
  match skip_ws s with
  | String c' r => if Ascii.eqb c c' then Some r else None
  | EmptyString => None
  end.

Definition read_string (s : string) : option (string * string) :=
  r ← expect "034" s; read_chars r.

Fixpoint read_members (fuel : nat) (s : string) : option (list (string * string)) :=
  match fuel with
  | O => None
  | S fuel' =>
      '(k, s1) ← read_string s;
      s2 ← expect ":" s1;
      '(v, s3) ← read_string s2;
      match skip_ws s3 with
      | String c r =>
          if Ascii.eqb c "," then
            rest ← read_members fuel' r; Some ((k, v) :: rest)
          else if Ascii.eqb c "}" then
            match skip_ws r with
            | EmptyString => Some [(k, v)]
            | _ => None
            end
          else None
      | EmptyString => None
      end
  end.

Definition parse_object (s : string) : option (list (string * string)) :=
  s1 ← expect "{" s;
  match expect "}" s1 with
  | Some r =>
      match skip_ws r with
      | EmptyString => Some []
      | _ => None
      end
  | None => read_members (String.length s) s1
  end.

Fixpoint field (key : string) (fields : list (string * string)) : option string :=
  match fields with
  | [] => None
  | (k, v) :: rest =>
      match field key rest with
      | Some v' => Some v'
      | None => if String.eqb k key then Some v else None
      end
  end.

End Json.

Inductive FieldValue :=
| Fixed (v : string)
| Generated.

Definition secret_field (g : SecretStringGenerator) (key : string) : option FieldValue :=
  if String.eqb key (generate_string_key g) then Some Generated
  else fields ← Json.parse_object (secret_string_template g);
       Fixed <$> Json.field key fields.

(** *** Checks over a whole stack *)

(** [P] holds of every construct of the scope. *)
Definition stack_forallb (P : string → Resource → bool) (st : gmap string Resource)
    : bool :=
  forallb (λ kv, P kv.1 kv.2) (map_to_list st).

Definition is_database (r : Resource) : bool :=
  match r with RDatabaseInstance _ => true | _ => false end.

Definition is_task_definition (r : Resource) : bool :=
  match r with RTaskDefinition _ => true | _ => false end.

Definition is_service (r : Resource) : bool :=
  match r with RService _ => true | _ => false end.

(** *** Where deferred values end up *)

Definition is_secret_token (tk : Token.t) : bool :=
  match tk with
  | Token.SecretValueUnsafeUnwrap _ => true
  | _ => false
  end.

Definition is_endpoint_token (tk : Token.t) : bool :=
  match tk with
  | Token.DbInstanceEndpointAddress _ | Token.DbInstanceEndpointPort _ => true
  | Token.SecretValueUnsafeUnwrap _ => false
  end.

(** In the dict [e], deferred values of the kind [kind] occur under the
    variable [var] only. *)
Definition confined (kind : Token.t → bool) (var : string)
    (e : gmap string Token.tstring) : bool :=
  forallb (λ kv, String.eqb kv.1 var
                 || forallb (λ tk, negb (kind tk)) (Token.tokens kv.2))
    (map_to_list e).

(** Three resolutions to compare: the second differs from the first in
    the secret alone, the third in the endpoint alone. *)
Definition resolution_first : Token.resolver :=
  {| Token.endpoint_address := λ _, "db-a.internal";
     Token.endpoint_port := λ _, "5432";
     Token.secret_value := λ _, "first" |}.

Definition resolution_other_secret : Token.resolver :=
  {| Token.endpoint_address := λ _, "db-a.internal";
     Token.endpoint_port := λ _, "5432";
     Token.secret_value := λ _, "second" |}.

Definition resolution_other_endpoint : Token.resolver :=
  {| Token.endpoint_address := λ _, "db-b.internal";
     Token.endpoint_port := λ _, "6543";
     Token.secret_value := λ _, "first" |}.

(** * Properties *)

(** ** The construct scope *)

Section Scope.

Implicit Types (st : gmap string Resource) (id k : string) (r : Resource).

Lemma add_child_fresh st id r :
  st !! id = None → add_child id r st = Ok id (<[id := r]> st).
Proof. intros H. unfold add_child. by rewrite H. Qed.

(** A taken id raises and leaves the scope as it was. *)
Lemma add_child_taken st id r :
  is_Some (st !! id) → add_child id r st = Raised (DuplicateConstructId id) st.
Proof. intros [r' H]. unfold add_child. by rewrite H. Qed.

Lemma update_inv st st' id f u :
  update id f st = Ok u st' →
  ∃ r r', st !! id = Some r ∧ f r = Some r' ∧ st' = <[id := r']> st.
Proof.
  unfold update. destruct (st !! id) as [r|] eqn:E; [|discriminate].
  destruct (f r) as [r'|] eqn:F; [|discriminate].
  intros [= <-]. eauto.
Qed.

Lemma update_frame st st' id f u k :
  update id f st = Ok u st' → k ≠ id → st' !! k = st !! k.
Proof.
  intros (r & r' & ? & ? & ->)%update_inv Hne. by rewrite lookup_insert_ne.
Qed.

(** Once an exception is raised, what follows has no effect. *)
Lemma bind_raised {A B} (m : M A) (k : A → M B) st e st' :
  m st = Raised e st' → (m ≫= k) st = Raised e st'.
Proof. intros H. unfold mbind, M_bind. by rewrite H. Qed.

End Scope.

Lemma stack_forallb_lookup P (st : gmap string Resource) id r :
  stack_forallb P st = true → st !! id = Some r → P id r = true.
Proof.
  unfold stack_forallb. rewrite forallb_forall. intros H Hl.
  apply (H (id, r)), list_elem_of_In, elem_of_map_to_list, Hl.
Qed.

Lemma forallb_elem_of {A} (f : A → bool) (l : list A) x :
  forallb f l = true → x ∈ l → f x = true.
Proof. rewrite forallb_forall. intros H Hx. by apply H, list_elem_of_In. Qed.

(** ** Matching traffic *)

Lemma port_matches_tcp p t :
  port_matches (Port_tcp p) t = true ↔ t = tcp p.
Proof.
  unfold port_matches, Port_tcp; cbn [port_protocol from_port to_port].
  destruct t as [q|q|ty code|n]; try (split; discriminate).
  rewrite andb_true_iff, !Z.leb_le. split.
  - intros [? ?]. f_equal. lia.
  - intros [= ->]. lia.
Qed.

Lemma port_matches_icmp ty code t :
  ty ≠ (-1)%Z → code ≠ (-1)%Z →
  port_matches (Port_icmp_type_and_code ty code) t = true ↔ t = icmp ty code.
Proof.
  intros Hty Hcode.
  unfold port_matches, Port_icmp_type_and_code; cbn [port_protocol from_port to_port].
  destruct t as [q|q|ty' code'|n]; try (split; discriminate).
  rewrite orb_true_iff, andb_true_iff, orb_true_iff, !Z.eqb_eq. split.
  - intros [H|[H1 [H|H2]]]; [done| done |]. by rewrite H1, H2.
  - intros [= <- <-]. right. split; [done|]. by right.
Qed.

Lemma in_cidr_spec c a :
  in_cidr c a = true ↔
  Z.shiftr a (32 - cidr_prefix c) = Z.shiftr (cidr_base c) (32 - cidr_prefix c).
Proof. unfold in_cidr. apply Z.eqb_eq. Qed.

(** With a full-length prefix the block is its base address alone. *)
Lemma in_cidr_host base a :
  in_cidr {| cidr_base := base; cidr_prefix := 32 |} a = true ↔ a = base.
Proof. rewrite in_cidr_spec; simpl. by rewrite !Z.shiftr_0_r. Qed.

(** 10.0.0.0/16 holds 10.0.3.4 and not 192.168.1.1. *)
Example in_cidr_inside :
  in_cidr {| cidr_base := 167772160; cidr_prefix := 16 |} 167772932 = true.
Proof. reflexivity. Qed.

Example in_cidr_outside :
  in_cidr {| cidr_base := 167772160; cidr_prefix := 16 |} 3232235777 = false.
Proof. reflexivity. Qed.

Lemma existsb_one {A} (f : A → bool) x : existsb f [x] = f x.
Proof. simpl. apply orb_false_r. Qed.

(** ** Deferred strings *)

Lemma append_cons x (a b : string) : String x a ++ b = String x (a ++ b).
Proof. reflexivity. Qed.

Lemma append_empty_r (a : string) : a ++ EmptyString = a.
Proof. induction a as [|x a IH]; [done|]. by rewrite append_cons, IH. Qed.

Lemma resolve_agree r1 r2 (ts : Token.tstring) :
  (∀ tk, tk ∈ Token.tokens ts → Token.resolve_token r1 tk = Token.resolve_token r2 tk) →
  Token.resolve r1 ts = Token.resolve r2 ts.
Proof.
  induction ts as [|[s|tk] ts IH]; intros H; [done| |].
  - cbn [Token.resolve Token.resolve_frag]. f_equal. apply IH. intros tk Htk.
    apply H. exact Htk.
  - cbn [Token.resolve Token.resolve_frag]. f_equal.
    + apply H. cbn [Token.tokens]. apply elem_of_cons. by left.
    + apply IH. intros tk' Htk'. apply H. cbn [Token.tokens].
      apply elem_of_cons. by right.
Qed.

Lemma confined_sound kind var (e : gmap string Token.tstring) v ts tk :
  confined kind var e = true →
  e !! v = Some ts →
  v ≠ var →
  tk ∈ Token.tokens ts →
  kind tk = false.
Proof.
  intros H Hv Hne Htk. unfold confined in H.
  apply (forallb_elem_of _ _ (v, ts)) in H; [|by apply elem_of_map_to_list].
  cbn [fst snd] in H. apply orb_true_iff in H as [H|H].
  - by apply String.eqb_eq in H.
  - apply (forallb_elem_of _ _ tk) in H; [|exact Htk]. by apply negb_true_iff in H.
Qed.

(** ** Zones *)

Lemma availability_zones_length v available :
  length (availability_zones v available) = min (max_azs v) (length available).
Proof. unfold availability_zones. apply length_take. Qed.

Lemma bind_singleton_length {A B} (f : A → B) (l : list A) :
  length (x ← l; [f x]) = length l.
Proof.
  induction l as [|a l IH]; [done|].
  rewrite bind_cons, length_app, IH. done.
Qed.

Lemma subnets_length v available :
  length (subnets v available) =
  length (availability_zones v available) * length (subnet_configuration v).
Proof.
  unfold subnets. induction (availability_zones v available) as [|z zs IH]; [done|].
  rewrite bind_cons, length_app, IH, (bind_singleton_length (pair z)). done.
Qed.

(** ** How the run ends *)

(** Whichever value the deletion-protection literal has, the run ends
    on line 74, in the arguments of the database's constructor. *)
Lemma stack_synth_crashes b :
  stack_synth b
  = Crashed (AttributeError "aws_cdk.aws_rds" "SubnetSelection") declared.
Proof.
  destruct b.
  - vm_cast_no_check (eq_refl (stack_synth true)).
  - vm_cast_no_check (eq_refl (stack_synth false)).
Qed.

Lemma app_synth_crashes :
  app_synth = Crashed (AttributeError "aws_cdk.aws_rds" "SubnetSelection") declared.
Proof. exact (stack_synth_crashes false). Qed.

Lemma declared_dom :
  dom (children declared) = (list_to_set declared_ids : gset string).
Proof. vm_cast_no_check (eq_refl (dom (children declared))). Qed.

Lemma declared_only id : is_Some (children declared !! id) ↔ id ∈ declared_ids.
Proof. rewrite <- elem_of_dom, declared_dom. apply elem_of_list_to_set. Qed.

Lemma declared_none id : id ∉ declared_ids → children declared !! id = None.
Proof.
  intros H. apply eq_None_not_Some. by rewrite declared_only.
Qed.

Lemma not_declared_ids id :
  bool_decide (id ∈ declared_ids) = false → id ∉ declared_ids.
Proof. intros H Hin. by rewrite (bool_decide_eq_true_2 _ Hin) in H. Qed.

Lemma declared_kinds :
  stack_forallb
    (λ _ r, negb (is_database r) && negb (is_task_definition r) && negb (is_service r))
    (children declared) = true.
Proof. vm_compute. reflexivity. Qed.

Lemma declared_no_database id r :
  children declared !! id = Some r → is_database r = false.
Proof.
  intros Hl. pose proof (stack_forallb_lookup _ _ _ _ declared_kinds Hl) as H.
  cbn beta in H. by destruct (is_database r).
Qed.

Lemma declared_no_task_definition id r :
  children declared !! id = Some r → is_task_definition r = false.
Proof.
  intros Hl. pose proof (stack_forallb_lookup _ _ _ _ declared_kinds Hl) as H.
  cbn beta in H. destruct (is_task_definition r); [|done].
  by rewrite andb_false_r in H.
Qed.

Lemma declared_no_service id r :
  children declared !! id = Some r → is_service r = false.
Proof.
  intros Hl. pose proof (stack_forallb_lookup _ _ _ _ declared_kinds Hl) as H.
  cbn beta in H. destruct (is_service r); [|done].
  by rewrite andb_false_r in H.
Qed.

(** ** The credential secret *)

(** C1, on the code as it runs: the run ends on line 74 with exactly
    one secret generated, its username fixed to [sonar] and its
    password generated, and with that secret put to use nowhere:
    neither the database nor the container that were to take it is
    declared. *)
Theorem C1_secret_generated_never_bound :
  ∃ st g,
    app_synth = Crashed (AttributeError "aws_cdk.aws_rds" "SubnetSelection") st
    ∧ generated_secrets (children st) = ["SonarQubeDBSecret"]
    ∧ children st !! "SonarQubeDBSecret"
        = Some (RSecret {| generate_secret_string := Some g |})
    ∧ secret_field g "username" = Some (Fixed "sonar")
    ∧ secret_field g "password" = Some Generated
    ∧ secret_refs "SonarQubeDBSecret" (children st) = []
    ∧ children st !! "SonarQubeDatabase" = None
    ∧ children st !! "SonarQubeTaskDefinition" = None.
Proof.
  eexists declared, _. split; [exact app_synth_crashes|].
  split; [vm_compute; reflexivity|].
  split; [vm_compute; reflexivity|].
  split; [vm_compute; reflexivity|].
  split; [vm_compute; reflexivity|].
  split; [vm_compute; reflexivity|].
  split; apply declared_none, not_declared_ids; vm_compute; reflexivity.
Qed.

(** ** The connection string *)

(** C2, as the source writes it: whatever the handles of the database
    and of the secret, the connection string the source puts under
    [SONAR_JDBC_URL] is, under every resolution, the scheme followed by
    the endpoint address and port of that database and by the name
    [sonarqube]; no part of the endpoint is literal.  The secret is
    not part of that string: its value is written next to it, under
    [SONAR_JDBC_PASSWORD]. *)
Theorem C2_connection_string_deferred
    (database db_secret : string) (r : Token.resolver) :
  container_environment_literal database db_secret !! "SONAR_JDBC_URL"
    = Some (jdbc_url database)
  ∧ Token.tokens (jdbc_url database)
      = [ Token.DbInstanceEndpointAddress database;
          Token.DbInstanceEndpointPort database ]
  ∧ Token.literals (jdbc_url database) = ["jdbc:postgresql://"; ":"; "/sonarqube"]
  ∧ Token.resolve r (jdbc_url database)
      = "jdbc:postgresql://"
        ++ Token.endpoint_address r database ++ ":"
        ++ Token.endpoint_port r database ++ "/sonarqube"
  ∧ container_environment_literal database db_secret !! "SONAR_JDBC_PASSWORD"
      = Some [Token.Tok (Token.SecretValueUnsafeUnwrap db_secret)]
  ∧ Token.resolve r [Token.Tok (Token.SecretValueUnsafeUnwrap db_secret)]
      = Token.secret_value r db_secret.
Proof.
  split; [vm_compute; reflexivity|].
  split; [reflexivity|].
  split; [reflexivity|].
  split.
  { unfold jdbc_url. cbn [Token.resolve Token.resolve_frag Token.resolve_token].
    rewrite append_empty_r. reflexivity. }
  split; [vm_compute; reflexivity|].
  cbn [Token.resolve Token.resolve_frag Token.resolve_token].
  apply append_empty_r.
Qed.

(** C2, as stated, fails: the connection string the source writes is
    not derived from the credential secret, which no part of it names. *)
Lemma C2_connection_string_without_secret :
  ¬ ∃ url,
      container_environment_literal "SonarQubeDatabase" "SonarQubeDBSecret"
        !! "SONAR_JDBC_URL" = Some url
      ∧ Token.SecretValueUnsafeUnwrap "SonarQubeDBSecret" ∈ Token.tokens url.
Proof.
  intros (url & Hurl & Hin).
  vm_compute in Hurl. injection Hurl as <-.
  cbn [Token.tokens] in Hin.
  apply elem_of_cons in Hin as [?|Hin]; [discriminate|].
  apply elem_of_cons in Hin as [?|Hin]; [discriminate|].
  by apply elem_of_nil in Hin.
Qed.

(** ** Access-control groups *)

(** C3, on the code as it runs: the group meant for the database is
    declared before the run ends.  It admits an inbound packet exactly
    when its sender lies in the block of the stack's network and it is
    TCP to port 5432, so any sender outside that block is turned away;
    outbound it matches nothing but ICMP type 252, code 86, to
    255.255.255.255.  The group meant for the service is not declared,
    nor are the database and the service. *)
Theorem C3_database_group_scoped_to_network :
  ∃ st g,
    app_synth = Crashed (AttributeError "aws_cdk.aws_rds" "SubnetSelection") st
    ∧ children st !! "SonarQubeDBSecurityGroup" = Some (RSecurityGroup g)
    ∧ sg_vpc g = "SonarQubeVPC"
    ∧ allow_all_outbound g = false
    ∧ (∀ net pkt,
         admits_inbound net g pkt = true
         ↔ in_cidr (net (sg_vpc g)) (pkt_addr pkt) = true
           ∧ pkt_traffic pkt = tcp 5432)
    ∧ (∀ net pkt,
         in_cidr (net (sg_vpc g)) (pkt_addr pkt) = false
         → admits_inbound net g pkt = false)
    ∧ (∀ net pkt,
         admits_outbound net g pkt = true
         ↔ pkt_addr pkt = 4294967295%Z ∧ pkt_traffic pkt = icmp 252 86)
    ∧ children st !! "SonarQubeServiceSG" = None
    ∧ children st !! "SonarQubeDatabase" = None
    ∧ children st !! "SonarQubeService" = None.
Proof.
  eexists declared, _. split; [exact app_synth_crashes|].
  split; [vm_compute; reflexivity|].
  split; [reflexivity|]. split; [reflexivity|].
  split.
  { intros net pkt. unfold admits_inbound. cbn [ingress_rules sg_vpc].
    rewrite existsb_one. unfold rule_matches.
    cbn [rule_peer rule_connection peer_matches eval_cidr].
    change {| port_protocol := TCP; from_port := 5432; to_port := 5432 |}
      with (Port_tcp 5432).
    rewrite andb_true_iff, port_matches_tcp. tauto. }
  split.
  { intros net pkt. unfold admits_inbound. cbn [ingress_rules sg_vpc].
    rewrite existsb_one. unfold rule_matches.
    cbn [rule_peer peer_matches eval_cidr]. by intros ->. }
  split.
  { intros net pkt. unfold admits_outbound. cbn [egress_rules].
    rewrite existsb_one. unfold rule_matches.
    cbn [rule_peer rule_connection peer_matches eval_cidr].
    change {| port_protocol := ICMP; from_port := 252; to_port := 86 |}
      with (Port_icmp_type_and_code 252 86).
    rewrite andb_true_iff, in_cidr_host, port_matches_icmp by done. tauto. }
  repeat split; apply declared_none, not_declared_ids; vm_compute; reflexivity.
Qed.

(** ** The network *)

(** C4, as the code has it: the network is declared, with exactly two
    tiers, one public and one private with egress, and spreads over at
    most two zones: two wherever the region offers that many, with one
    subnet per zone and tier. *)
Theorem C4_two_tiers_at_most_two_zones :
  ∃ e st v,
    app_synth = Crashed e st
    ∧ children st !! "SonarQubeVPC" = Some (RVpc v)
    ∧ subnet_tiers v = [PUBLIC; PRIVATE_WITH_EGRESS]
    ∧ ∀ available,
        (length (availability_zones v available) ≤ 2)%nat
        ∧ ((2 ≤ length available)%nat → length (availability_zones v available) = 2)
        ∧ length (subnets v available)
            = (2 * length (availability_zones v available))%nat.
Proof.
  eexists _, declared, _. split; [exact app_synth_crashes|].
  split; [vm_compute; reflexivity|].
  split; [reflexivity|].
  intros available.
  rewrite subnets_length, availability_zones_length.
  cbn [max_azs subnet_configuration length]. lia.
Qed.

(** C4, as stated, fails: two is the most zones the declared network
    takes, not the fewest.  Where one zone is on offer it takes that
    one. *)
Lemma C4_one_zone_when_one_offered :
  ¬ ∀ v,
      children (stack_of app_synth) !! "SonarQubeVPC" = Some (RVpc v) →
      ∀ available, (2 ≤ length (availability_zones v available))%nat.
Proof.
  intros H.
  specialize (H {| max_azs := 2;
                   subnet_configuration :=
                     [ {| sc_name := "public"; sc_subnet_type := PUBLIC |};
                       {| sc_name := "private";
                          sc_subnet_type := PRIVATE_WITH_EGRESS |} ] |}).
  assert (Hv : children (stack_of app_synth) !! "SonarQubeVPC"
               = Some (RVpc {| max_azs := 2;
                               subnet_configuration :=
                                 [ {| sc_name := "public"; sc_subnet_type := PUBLIC |};
                                   {| sc_name := "private";
                                      sc_subnet_type := PRIVATE_WITH_EGRESS |} ] |}))
    by (vm_compute; reflexivity).
  specialize (H Hv ["zone-a"]). vm_compute in H. lia.
Qed.

(** ** The database *)

(** C5, on the code as it runs: the run ends on line 74, while the
    arguments of the database's constructor are being evaluated, so no
    database is declared.  What was to be bound to it is: the subnet
    group, on the private tier with egress, the database-side group and
    the secret. *)
Theorem C5_database_never_declared :
  ∃ st sg g sec,
    app_synth = Crashed (AttributeError "aws_cdk.aws_rds" "SubnetSelection") st
    ∧ children st !! "SonarQubeDatabase" = None
    ∧ (∀ id r, children st !! id = Some r → is_database r = false)
    ∧ children st !! "SonarQubeDBSubnetGroup" = Some (RSubnetGroup sg)
    ∧ subnet_group_subnet_type sg = PRIVATE_WITH_EGRESS
    ∧ children st !! "SonarQubeDBSecurityGroup" = Some (RSecurityGroup g)
    ∧ children st !! "SonarQubeDBSecret" = Some (RSecret sec).
Proof.
  eexists declared, _, _, _. split; [exact app_synth_crashes|].
  split; [apply declared_none, not_declared_ids; vm_compute; reflexivity|].
  split; [exact declared_no_database|].
  split; [vm_compute; reflexivity|]. split; [reflexivity|].
  split; vm_compute; reflexivity.
Qed.

(** ** The service *)

(** C6, on the code as it runs: when the run ends no service is
    declared, and no task definition for one to run, so no task
    instance is asked for. *)
Theorem C6_no_service_declared :
  ∃ st,
    app_synth = Crashed (AttributeError "aws_cdk.aws_rds" "SubnetSelection") st
    ∧ children st !! "SonarQubeService" = None
    ∧ children st !! "SonarQubeTaskDefinition" = None
    ∧ ∀ id r, children st !! id = Some r →
        is_service r = false ∧ is_task_definition r = false.
Proof.
  exists declared. split; [exact app_synth_crashes|].
  split; [apply declared_none, not_declared_ids; vm_compute; reflexivity|].
  split; [apply declared_none, not_declared_ids; vm_compute; reflexivity|].
  intros id r Hl. split.
  - by apply (declared_no_service id).
  - by apply (declared_no_task_definition id).
Qed.

(** C7, on the code as it runs: the run ends on line 74, long before
    the health check is configured on line 132; when it ends there is
    no service, hence no target group and no health-check path,
    configured or default. *)
Theorem C7_no_health_check_configured :
  ∃ st,
    app_synth = Crashed (AttributeError "aws_cdk.aws_rds" "SubnetSelection") st
    ∧ children st !! "SonarQubeService" = None
    ∧ ∀ id r, children st !! id = Some r → is_service r = false.
Proof.
  exists declared. split; [exact app_synth_crashes|].
  split; [apply declared_none, not_declared_ids; vm_compute; reflexivity|].
  exact declared_no_service.
Qed.

(** ** Deletion protection *)


(** ** The grant *)

(** C9, on the code as it runs: when the run ends the secret is
    declared, but the task definition whose role was to be allowed to
    read it is not, so no role holds any statement on the secret. *)
Theorem C9_grant_never_made :
  ∃ st sec,
    app_synth = Crashed (AttributeError "aws_cdk.aws_rds" "SubnetSelection") st
    ∧ children st !! "SonarQubeDBSecret" = Some (RSecret sec)
    ∧ children st !! "SonarQubeTaskDefinition" = None
    ∧ ∀ id t, children st !! id ≠ Some (RTaskDefinition t).
Proof.
  eexists declared, _. split; [exact app_synth_crashes|].
  split; [vm_compute; reflexivity|].
  split; [apply declared_none, not_declared_ids; vm_compute; reflexivity|].
  intros id t Hl. by apply declared_no_task_definition in Hl.
Qed.

(** ** The username *)

(** C10, on the code as it runs: the secret is declared with its
    [username] field fixed to [sonar], and [sonar] is what the source
    writes under [SONAR_JDBC_USERNAME]; but when the run ends no task
    definition is declared, so no container has been given it. *)
Theorem C10_username_written_not_injected :
  ∃ st g,
    app_synth = Crashed (AttributeError "aws_cdk.aws_rds" "SubnetSelection") st
    ∧ children st !! "SonarQubeDBSecret"
        = Some (RSecret {| generate_secret_string := Some g |})
    ∧ secret_field g "username" = Some (Fixed "sonar")
    ∧ (∀ database db_secret,
         container_environment_literal database db_secret !! "SONAR_JDBC_USERNAME"
         = Some [Token.Lit "sonar"])
    ∧ ∀ id r, children st !! id = Some r → is_task_definition r = false.
Proof.
  eexists declared, _. split; [exact app_synth_crashes|].
  split; [vm_compute; reflexivity|].
  split; [vm_compute; reflexivity|].
  split; [intros database db_secret; vm_compute; reflexivity|].
  exact declared_no_task_definition.
Qed.

(** * Further properties *)

(** ** Where the run ends *)

(** Whichever value the deletion-protection literal has, the run ends
    with [AttributeError] on line 74, and the stack then holds the four
    constructs declared before that line and no other. *)
Theorem X1_construction_raises (b : bool) :
  ∃ st,
    stack_synth b = Crashed (AttributeError "aws_cdk.aws_rds" "SubnetSelection") st
    ∧ NoDup declared_ids
    ∧ (∀ id, is_Some (children st !! id) ↔ id ∈ declared_ids)
    ∧ size (children st) = length declared_ids.
Proof.
  exists declared. split; [apply stack_synth_crashes|].
  assert (Hnd : NoDup declared_ids).
  { apply (bool_decide_unpack _). vm_compute. exact I. }
  split; [exact Hnd|]. split; [exact declared_only|].
  rewrite <- size_dom, declared_dom. by apply size_list_to_set.
Qed.

(** ** Where deferred values are written *)

(** In the environment the source writes, the value of the secret
    appears under [SONAR_JDBC_PASSWORD] and nowhere else: two
    resolutions that give the database the same endpoint give every
    other variable the same value, whatever they make of the secret. *)
Theorem X6_secret_confined_to_password
    (database db_secret var : string) (ts : Token.tstring) (r1 r2 : Token.resolver) :
  (∀ db, Token.endpoint_address r1 db = Token.endpoint_address r2 db) →
  (∀ db, Token.endpoint_port r1 db = Token.endpoint_port r2 db) →
  container_environment_literal database db_secret !! var = Some ts →
  var ≠ "SONAR_JDBC_PASSWORD" →
  Token.resolve r1 ts = Token.resolve r2 ts.
Proof.
  intros Ha Hp Hv Hne. apply resolve_agree. intros tk Htk.
  assert (Hc : confined is_secret_token "SONAR_JDBC_PASSWORD"
                 (container_environment_literal database db_secret) = true)
    by (vm_compute; reflexivity).
  pose proof (confined_sound _ _ _ _ _ _ Hc Hv Hne Htk) as Hk.
  destruct tk; cbn [Token.resolve_token]; [apply Ha | apply Hp | discriminate].
Qed.

(** The connection string under two resolutions that differ in the
    secret alone. *)
Lemma X6_two_secrets_same_url :
  (∀ db, Token.endpoint_address resolution_first db
         = Token.endpoint_address resolution_other_secret db)
  ∧ (∀ db, Token.endpoint_port resolution_first db
           = Token.endpoint_port resolution_other_secret db)
  ∧ container_environment_literal "SonarQubeDatabase" "SonarQubeDBSecret"
      !! "SONAR_JDBC_URL" = Some (jdbc_url "SonarQubeDatabase")
  ∧ "SONAR_JDBC_URL" ≠ "SONAR_JDBC_PASSWORD"
  ∧ Token.resolve resolution_first (jdbc_url "SonarQubeDatabase")
    = Token.resolve resolution_other_secret (jdbc_url "SonarQubeDatabase").
Proof.
  assert (Ha : ∀ db, Token.endpoint_address resolution_first db
                     = Token.endpoint_address resolution_other_secret db)
    by reflexivity.
  assert (Hp : ∀ db, Token.endpoint_port resolution_first db
                     = Token.endpoint_port resolution_other_secret db)
    by reflexivity.
  assert (Hv : container_environment_literal "SonarQubeDatabase" "SonarQubeDBSecret"
                 !! "SONAR_JDBC_URL" = Some (jdbc_url "SonarQubeDatabase"))
    by (vm_compute; reflexivity).
  assert (Hne : "SONAR_JDBC_URL" ≠ "SONAR_JDBC_PASSWORD") by discriminate.
  split; [exact Ha|]. split; [exact Hp|]. split; [exact Hv|]. split; [exact Hne|].
  exact (X6_secret_confined_to_password _ _ _ _ _ _ Ha Hp Hv Hne).
Defined.

(** In the environment the source writes, the endpoint of the database
    appears under [SONAR_JDBC_URL] and nowhere else: two resolutions
    that agree on the secrets give every other variable the same value,
    wherever they put the database. *)
Theorem X7_endpoint_confined_to_url
    (database db_secret var : string) (ts : Token.tstring) (r1 r2 : Token.resolver) :
  (∀ sec, Token.secret_value r1 sec = Token.secret_value r2 sec) →
  container_environment_literal database db_secret !! var = Some ts →
  var ≠ "SONAR_JDBC_URL" →
  Token.resolve r1 ts = Token.resolve r2 ts.
Proof.
  intros Hs Hv Hne. apply resolve_agree. intros tk Htk.
  assert (Hc : confined is_endpoint_token "SONAR_JDBC_URL"
                 (container_environment_literal database db_secret) = true)
    by (vm_compute; reflexivity).
  pose proof (confined_sound _ _ _ _ _ _ Hc Hv Hne Htk) as Hk.
  destruct tk; cbn [Token.resolve_token]; [discriminate | discriminate | apply Hs].
Qed.

(** The password under two resolutions that differ in the endpoint
    alone. *)
Lemma X7_two_endpoints_same_password :
  (∀ sec, Token.secret_value resolution_first sec
          = Token.secret_value resolution_other_endpoint sec)
  ∧ container_environment_literal "SonarQubeDatabase" "SonarQubeDBSecret"
      !! "SONAR_JDBC_PASSWORD"
    = Some [Token.Tok (Token.SecretValueUnsafeUnwrap "SonarQubeDBSecret")]
  ∧ "SONAR_JDBC_PASSWORD" ≠ "SONAR_JDBC_URL"
  ∧ Token.resolve resolution_first
      [Token.Tok (Token.SecretValueUnsafeUnwrap "SonarQubeDBSecret")]
    = Token.resolve resolution_other_endpoint
        [Token.Tok (Token.SecretValueUnsafeUnwrap "SonarQubeDBSecret")].
Proof.
  assert (Hs : ∀ sec, Token.secret_value resolution_first sec
                      = Token.secret_value resolution_other_endpoint sec)
    by reflexivity.
  assert (Hv : container_environment_literal "SonarQubeDatabase" "SonarQubeDBSecret"
                 !! "SONAR_JDBC_PASSWORD"
               = Some [Token.Tok (Token.SecretValueUnsafeUnwrap "SonarQubeDBSecret")])
    by (vm_compute; reflexivity).
  assert (Hne : "SONAR_JDBC_PASSWORD" ≠ "SONAR_JDBC_URL") by discriminate.
  split; [exact Hs|]. split; [exact Hv|]. split; [exact Hne|].
  exact (X7_endpoint_confined_to_url _ _ _ _ _ _ Hs Hv Hne).
Defined.

(** ** Dict literals *)

Lemma dict_literal_snoc {V} (kvs : list (string * V)) k v :
  dict_literal (kvs ++ [(k, v)])%list = <[k := v]> (dict_literal kvs).
Proof. unfold dict_literal. by rewrite foldl_app. Qed.

(** A dict literal whose keys are all different holds exactly the
    entries written: none is lost and none is overwritten. *)
Theorem X11_dict_literal_entries {V} (kvs : list (string * V)) (k : string) (v : V) :
  NoDup kvs.*1 →
  dict_literal kvs !! k = Some v ↔ (k, v) ∈ kvs.
Proof.
  induction kvs as [|[k' v'] kvs IH] using rev_ind; intros Hnd.
  - unfold dict_literal; cbn [foldl]. rewrite lookup_empty.
    split; [discriminate|]. by intros ?%elem_of_nil.
  - rewrite fmap_app in Hnd. apply NoDup_app in Hnd as (Hnd & Hfresh & _).
    rewrite dict_literal_snoc, elem_of_app, list_elem_of_singleton.
    destruct (decide (k' = k)) as [->|Hne].
    + rewrite lookup_insert_eq. split.
      * intros [= ->]. by right.
      * intros [Hin|[= ->]]; [|done]. exfalso.
        apply (Hfresh k); [|apply elem_of_cons; by left].
        apply list_elem_of_fmap. by exists (k, v).
    + rewrite lookup_insert_ne by done. rewrite (IH Hnd). split; [by left|].
      intros [Hin|[= -> ->]]; [exact Hin|done].
Qed.

(** The username entry of an environment written like the source's. *)
Lemma X11_username_entry_found :
  NoDup [ ("SONAR_JDBC_USERNAME", [Token.Lit "sonar"]);
          ("SONAR_JDBC_PASSWORD",
           [Token.Tok (Token.SecretValueUnsafeUnwrap "SonarQubeDBSecret")]) ].*1
  ∧ dict_literal
      [ ("SONAR_JDBC_USERNAME", [Token.Lit "sonar"]);
        ("SONAR_JDBC_PASSWORD",
         [Token.Tok (Token.SecretValueUnsafeUnwrap "SonarQubeDBSecret")]) ]
      !! "SONAR_JDBC_USERNAME" = Some [Token.Lit "sonar"].
Proof.
  assert (Hnd : NoDup [ ("SONAR_JDBC_USERNAME", [Token.Lit "sonar"]);
                        ("SONAR_JDBC_PASSWORD",
                         [Token.Tok (Token.SecretValueUnsafeUnwrap "SonarQubeDBSecret")])
                      ].*1).
  { apply (bool_decide_unpack _). vm_compute. exact I. }
  split; [exact Hnd|].
  apply (X11_dict_literal_entries _ "SONAR_JDBC_USERNAME" [Token.Lit "sonar"] Hnd).
  apply elem_of_cons. by left.
Defined.
